(** * Near-Earth objects and their close approaches: the data model of models.py

    A shallow embedding of the two classes of [models.py], [NearEarthObject]
    and [CloseApproach], and the properties their constructors, derived
    names and serialisers satisfy.

    Conventions of the embedding:
    - a Python [str] is a [string]; the code only tests strings for emptiness,
      compares them with an ASCII literal and concatenates them, and those
      operations agree on code points and on their UTF-8 bytes;
    - a Python [float] is an IEEE 754 binary64 value of the Standard Library's
      [spec_float] (one NaN, two zeros, two infinities, finite values);
    - a call that can raise returns a [result]: the value, or the exception;
    - the builtins the code calls ([float] on a string, the text of a float in
      an f-string) are the fields of the class [Builtins], over which the
      methods are generic; the one fact about them the code relies on,
      [float_nan_is_nan], is a hypothesis where it is used, and [reference] is
      an instance to compute with. *)

From Stdlib Require Import String Ascii List ZArith Lia Bool DecimalString.
From Stdlib Require Import Floats.SpecFloat.
Import ListNotations.
Local Open Scope string_scope.

Set Warnings "-register-all".

(** ** Exceptions and results *)

Inductive exn : Set :=
| ValueError      (* a string that does not convert: [float], the time parser *)
| AttributeError  (* attribute access on [None] *)
| KeyError        (* subscript by a key the dict does not have *)
| TypeError.      (* subscript of a value that is not a dict *)

Inductive result (A : Type) : Type :=
| Ok (a : A)
| Raise (e : exn).

Arguments Ok {A} a.
Arguments Raise {A} e.

Definition bind {A B : Type} (m : result A) (k : A -> result B) : result B :=
  match m with
  | Ok a => k a
  | Raise e => Raise e
  end.

Notation "x <- m ;; k" := (bind m (fun x => k))
  (at level 61, m at next level, right associativity).

Definition succeeds {A : Type} (m : result A) : Prop := exists a, m = Ok a.

(** ** Python values the code handles *)

(** [float]: binary64. *)
Definition pyfloat : Set := spec_float.

Definition nan : pyfloat := S754_nan.
Definition zero : pyfloat := S754_zero false.

(** [x == y] and [x != y] on floats. *)
Definition float_eq (x y : pyfloat) : bool := SFeqb x y.
Definition float_ne (x y : pyfloat) : bool := negb (SFeqb x y).

(** [len(s)] and the truth value of an [int] in [if len(s):]. *)
Definition len (s : string) : nat := String.length s.
Definition truthy (n : nat) : bool := negb (Nat.eqb n 0).

(** The values a serialised mapping holds.  A dict display keeps the order in
    which its keys are written, so a dict is the list of its items. *)
Inductive pyval : Set :=
| PyNone
| PyBool (b : bool)
| PyStr (s : string)
| PyFloat (f : pyfloat)
| PyDict (items : list (string * pyval)).

Fixpoint dict_find (k : string) (items : list (string * pyval)) : option pyval :=
  match items with
  | [] => None
  | (k', v) :: rest => if String.eqb k k' then Some v else dict_find k rest
  end.

(** [d[k]]. *)
Definition getitem (d : pyval) (k : string) : result pyval :=
  match d with
  | PyDict items =>
      match dict_find k items with
      | Some v => Ok v
      | None => Raise KeyError
      end
  | _ => Raise TypeError
  end.

(** [list(d.keys())]: the keys in the order of the display. *)
Definition keys (d : pyval) : result (list string) :=
  match d with
  | PyDict items => Ok (map fst items)
  | _ => Raise AttributeError
  end.

(** [None] or a string, as a value and as the text an f-string gives it. *)
Definition of_optstr (o : option string) : pyval :=
  match o with
  | Some s => PyStr s
  | None => PyNone
  end.

Definition format_optstr (o : option string) : string :=
  match o with
  | Some s => s
  | None => "None"
  end.

(** ** Decimal digits *)

Definition digit_value (c : ascii) : option nat :=
  let n := nat_of_ascii c in
  if Nat.leb 48 n && Nat.leb n 57 then Some (n - 48)%nat else None.

Definition digit_char (d : nat) : ascii := ascii_of_nat (48 + d).

(** ** A reference instance of the builtin [float]

    Conversion of the literals the data files hold: an optional sign, then
    [nan] in lower case, or decimal digits with an optional fraction and an
    optional exponent, rounded to the nearest binary64 value, ties to even.
    The other spellings [float] accepts (surrounding blanks, [inf], other
    cases of [nan], digit separators) are not covered: this instance rejects
    them. *)

Fixpoint scan_digits (s : string) (acc : Z) (n : nat) : Z * nat * string :=
  match s with
  | String c s' =>
      match digit_value c with
      | Some d => scan_digits s' (10 * acc + Z.of_nat d)%Z (S n)
      | None => (acc, n, s)
      end
  | EmptyString => (acc, n, s)
  end.

Definition scan_sign (s : string) : bool * string :=
  match s with
  | String "-" s' => (true, s')
  | String "+" s' => (false, s')
  | _ => (false, s)
  end.

Definition scan_exponent (s : string) : option Z :=
  match s with
  | EmptyString => Some 0%Z
  | String c s' =>
      if Ascii.eqb c "e" || Ascii.eqb c "E" then
        let (neg, s1) := scan_sign s' in
        let '(v, n, rest) := scan_digits s1 0%Z 0 in
        match n, rest with
        | S _, EmptyString => Some (if neg then (- v)%Z else v)
        | _, _ => None
        end
      else None
  end.

(** The binary64 value nearest to [m * 10 ^ e10]. *)
Definition decimal_to_float (neg : bool) (m e10 : Z) : pyfloat :=
  if (0 <=? e10)%Z then
    match (m * 10 ^ e10)%Z with
    | Zpos n => binary_round 53 1024 neg n 0%Z
    | _ => S754_zero neg
    end
  else
    match m with
    | Zpos _ =>
        let '(q, e, l) :=
          SFdiv_core_binary 53 1024 m 0%Z (10 ^ (- e10))%Z 0%Z in
        binary_round_aux 53 1024 neg q e l
    | _ => S754_zero neg
    end.

Definition float_ref (s : string) : result pyfloat :=
  let (neg, s0) := scan_sign s in
  if String.eqb s0 "nan" then Ok nan
  else
    let '(ip, ni, s1) := scan_digits s0 0%Z 0 in
    let '(m, nf, s2) :=
      match s1 with
      | String "." s1' => scan_digits s1' ip 0
      | _ => (ip, 0, s1)
      end in
    match (ni + nf)%nat, scan_exponent s2 with
    | S _, Some e => Ok (decimal_to_float neg m (e - Z.of_nat nf))
    | _, _ => Raise ValueError
    end.

(** ** A reference instance of the text of a float

    What [repr] gives, and an f-string field without a format: the shortest
    decimal digits that convert back to the same float, the nearest to it when
    there are several, laid out in positional notation when the decimal point
    falls within the digits or at most four places before or sixteen after
    their start, and in exponent notation otherwise. *)

Definition digits_of (n : Z) : string :=
  NilZero.string_of_uint (N.to_uint (Z.to_N n)).

Fixpoint zeros (n : nat) : string :=
  match n with
  | O => EmptyString
  | S n' => String "0" (zeros n')
  end.

(** For [0 < num / den < 1]: the least [j >= 1] with [10 ^ j * num >= den]. *)
Fixpoint scale_up (fuel : nat) (num den j : Z) : Z :=
  match fuel with
  | O => j
  | S fuel' =>
      if (den <=? 10 * num)%Z then j
      else scale_up fuel' (10 * num)%Z den (j + 1)%Z
  end.

(** [floor (log10 (num / den))], for positive [num] and [den]. *)
Definition decimal_order (num den : Z) : Z :=
  if (den <=? num)%Z
  then (Z.of_nat (String.length (digits_of (num / den))) - 1)%Z
  else (- scale_up 400 num den 1)%Z.

(** The [p]-digit decimals on either side of [num / den], when one of them
    converts back to [x]: its digits and the power of ten that scales them. *)
Definition shortest_at (x : pyfloat) (num den k p : Z) : option (Z * Z) :=
  let s := (k - p + 1)%Z in
  let n := if (0 <=? s)%Z then num else (num * 10 ^ (- s))%Z in
  let d := if (0 <=? s)%Z then (den * 10 ^ s)%Z else den in
  let (q, r) := Z.div_eucl n d in
  let lo := float_eq (decimal_to_float false q s) x in
  let hi := float_eq (decimal_to_float false (q + 1) s) x in
  let up :=
    match (2 * r ?= d)%Z with
    | Gt => true
    | Eq => Z.odd q
    | Lt => false
    end in
  if (r =? 0)%Z then (if lo then Some (q, s) else None)
  else
    match lo, hi with
    | true, true => Some (if up then (q + 1)%Z else q, s)
    | true, false => Some (q, s)
    | false, true => Some ((q + 1)%Z, s)
    | false, false => None
    end.

Fixpoint shortest (fuel : nat) (x : pyfloat) (num den k p : Z) : Z * Z :=
  match fuel with
  | O => (0%Z, 0%Z)
  | S fuel' =>
      match shortest_at x num den k p with
      | Some r => r
      | None => shortest fuel' x num den k (p + 1)%Z
      end
  end.

Fixpoint strip_zeros (fuel : nat) (d s : Z) : Z * Z :=
  match fuel with
  | O => (d, s)
  | S fuel' =>
      if (d mod 10 =? 0)%Z then strip_zeros fuel' (d / 10)%Z (s + 1)%Z
      else (d, s)
  end.

(** [ds] are the digits, [decpt] the position of the decimal point counted
    from their start. *)
Definition layout (ds : string) (decpt : Z) : string :=
  let nd := Z.of_nat (String.length ds) in
  if (decpt <=? -4)%Z || (16 <? decpt)%Z then
    let e := (decpt - 1)%Z in
    let es := digits_of (Z.abs e) in
    match ds with
    | String c EmptyString => String c EmptyString
    | String c rest => String c ("." ++ rest)
    | EmptyString => EmptyString
    end
    ++ "e" ++ (if (e <? 0)%Z then "-" else "+")
    ++ (if Nat.ltb (String.length es) 2 then "0" ++ es else es)
  else if (decpt <=? 0)%Z then "0." ++ zeros (Z.to_nat (- decpt)) ++ ds
  else if (decpt <? nd)%Z then
    substring 0 (Z.to_nat decpt) ds ++ "."
    ++ substring (Z.to_nat decpt) (Z.to_nat (nd - decpt)) ds
  else ds ++ zeros (Z.to_nat (decpt - nd)) ++ ".0".

Definition float_repr_ref (x : pyfloat) : string :=
  match x with
  | S754_nan => "nan"
  | S754_infinity s => if s then "-inf" else "inf"
  | S754_zero s => if s then "-0.0" else "0.0"
  | S754_finite s m e =>
      let num := if (0 <=? e)%Z then (Zpos m * 2 ^ e)%Z else Zpos m in
      let den := if (0 <=? e)%Z then 1%Z else (2 ^ (- e))%Z in
      let pos := S754_finite false m e in
      let '(d0, s0) := shortest 17 pos num den (decimal_order num den) 1 in
      let '(d, s10) := strip_zeros 17 d0 s0 in
      let ds := digits_of d in
      (if s then "-" else "")
      ++ layout ds (s10 + Z.of_nat (String.length ds))
  end.

(** ** helpers.py: the date-time converters *)

(** Modelled from the spec: the date-time a [CloseApproach] stores.
    [models.py] imports [cd_to_datetime] and [datetime_to_str] from
    [helpers.py], which is not part of src/; the record, the readers and the
    writers below follow the spec's fixed layout YYYY-MMM-DD HH:MM.  A stored
    date-time has no seconds: the layout carries none. *)

Record datetime : Set := mkDatetime {
  year : nat;
  month : nat;
  day : nat;
  hour : nat;
  minute : nat
}.

Definition month_names : list string :=
  ["Jan"; "Feb"; "Mar"; "Apr"; "May"; "Jun";
   "Jul"; "Aug"; "Sep"; "Oct"; "Nov"; "Dec"]%list.

Definition month_abbr (m : nat) : string := nth (m - 1) month_names "".

Fixpoint index_of (s : string) (l : list string) (i : nat) : option nat :=
  match l with
  | [] => None
  | x :: l' => if String.eqb s x then Some i else index_of s l' (S i)
  end%list.

Definition month_of_abbr (s : string) : option nat := index_of s month_names 1.

Definition is_leap (y : nat) : bool :=
  Nat.eqb (y mod 4) 0 && (negb (Nat.eqb (y mod 100) 0) || Nat.eqb (y mod 400) 0).

Definition days_in_month (y m : nat) : nat :=
  match m with
  | 2 => if is_leap y then 29 else 28
  | 4 | 6 | 9 | 11 => 30
  | _ => 31
  end.

(** A calendar timestamp: years 1 to 9999, a day the month has. *)
Definition valid_datetime (t : datetime) : bool :=
  Nat.leb 1 (year t) && Nat.ltb (year t) (100 * 100)
  && Nat.leb 1 (month t) && Nat.leb (month t) 12
  && Nat.leb 1 (day t) && Nat.leb (day t) (days_in_month (year t) (month t))
  && Nat.ltb (hour t) 24 && Nat.ltb (minute t) 60.

(** Readers of the fixed-width fields; each gives the field and the rest. *)
Fixpoint read_number (width : nat) (acc : nat) (s : string) : option (nat * string) :=
  match width with
  | O => Some (acc, s)
  | S width' =>
      match s with
      | String c s' =>
          match digit_value c with
          | Some d => read_number width' (10 * acc + d) s'
          | None => None
          end
      | EmptyString => None
      end
  end.

Definition read_month (s : string) : option (nat * string) :=
  match s with
  | String a (String b (String c s')) =>
      match month_of_abbr (String a (String b (String c EmptyString))) with
      | Some m => Some (m, s')
      | None => None
      end
  | _ => None
  end.

Definition expect (c : ascii) (s : string) : option string :=
  match s with
  | String c' s' => if Ascii.eqb c c' then Some s' else None
  | EmptyString => None
  end.

(** The whole layout, then the calendar check; nothing may follow. *)
Definition parse_datetime (s : string) : option datetime :=
  match read_number 4 0 s with
  | None => None
  | Some (y, s) =>
  match expect "-" s with
  | None => None
  | Some s =>
  match read_month s with
  | None => None
  | Some (mo, s) =>
  match expect "-" s with
  | None => None
  | Some s =>
  match read_number 2 0 s with
  | None => None
  | Some (d, s) =>
  match expect " " s with
  | None => None
  | Some s =>
  match read_number 2 0 s with
  | None => None
  | Some (h, s) =>
  match expect ":" s with
  | None => None
  | Some s =>
  match read_number 2 0 s with
  | None => None
  | Some (mi, s) =>
      let t := mkDatetime y mo d h mi in
      match s with
      | EmptyString => if valid_datetime t then Some t else None
      | _ => None
      end
  end end end end end end end end end.

(** Modelled from the spec: [helpers.cd_to_datetime], whose source file
    [helpers.py] is not part of src/.  The spec has the time given as a string
    in the fixed layout YYYY-MMM-DD HH:MM, without seconds, parsed to a valid
    calendar timestamp, and a parse error raised for anything else. *)
Definition cd_to_datetime (calendar_date : string) : result datetime :=
  match parse_datetime calendar_date with
  | Some t => Ok t
  | None => Raise ValueError
  end.

Definition two_digits (n : nat) : string :=
  String (digit_char (n / 10 mod 10)) (String (digit_char (n mod 10)) EmptyString).

Definition four_digits (n : nat) : string :=
  String (digit_char (n / 1000 mod 10))
    (String (digit_char (n / 100 mod 10)) (two_digits n)).

(** Modelled from the spec: [helpers.datetime_to_str], whose source file
    [helpers.py] is not part of src/.  The spec has it format the stored
    date-time back to the same fixed layout, without seconds. *)
Definition datetime_to_str (dt : datetime) : string :=
  four_digits (year dt) ++ "-" ++ month_abbr (month dt) ++ "-"
  ++ two_digits (day dt) ++ " " ++ two_digits (hour dt) ++ ":"
  ++ two_digits (minute dt).

(** ** The builtins of the language that the classes call *)

Class Builtins : Type := {
  (** [float(s)] on a string [s]: the float, or [ValueError]. *)
  float : string -> result pyfloat;
  (** The text of a float in an f-string field without a format. *)
  float_repr : pyfloat -> string
}.

(** [float('nan')] is the NaN: what the constructor relies on when it
    normalises an unknown diameter. *)
Definition float_nan_is_nan `{Builtins} : Prop := float "nan" = Ok nan.

Definition reference : Builtins :=
  {| float := float_ref; float_repr := float_repr_ref |}.

(** The excess keyword arguments of a constructor, which it ignores. *)
Definition kwargs : Set := list (string * string).

(** The identity of an object.  The two classes refer to each other: a NEO
    holds its approaches and an approach its NEO.  [approaches] holds each
    approach by its identity, as nothing in [models.py] reads through it;
    [neo] holds the state of the NEO referred to, which is what the methods
    of an approach read. *)
Definition ident : Set := nat.

(** ** class NearEarthObject *)

Module NearEarthObject.

Record t : Set := mk {
  designation : string;
  name : option string;
  diameter : pyfloat;
  hazardous : bool;
  approaches : list ident
}.

Section Methods.
Context `{Builtins}.

Definition __init__ (designation name diameter hazardous : string)
    (info : kwargs) : result t :=
  let name' := if truthy (len name) then Some name else None in
  diameter' <- (if truthy (len diameter) then float diameter
                else float "nan") ;;
  let hazardous' := if String.eqb hazardous "Y" then true else false in
  Ok {| designation := designation;
        name := name';
        diameter := diameter';
        hazardous := hazardous';
        approaches := [] |}.

Definition fullname (self : t) : string :=
  designation self ++ " (" ++ format_optstr (name self) ++ ")".

Definition __str__ (self : t) : string :=
  "NEO " ++ fullname self ++ " has a diameter of "
  ++ float_repr (diameter self) ++ " km and "
  ++ (if hazardous self then "is" else "is not") ++ " potentially hazardous".

End Methods.

End NearEarthObject.

(** ** class CloseApproach *)

Module CloseApproach.

Record t : Set := mk {
  _designation : string;
  time : datetime;
  distance : pyfloat;
  velocity : pyfloat;
  neo : option NearEarthObject.t
}.

Section Methods.
Context `{Builtins}.

Definition __init__ (designation time distance velocity : string)
    (info : kwargs) : result t :=
  time' <- cd_to_datetime time ;;
  distance' <- float distance ;;
  velocity' <- float velocity ;;
  Ok {| _designation := designation;
        time := time';
        distance := distance';
        velocity := velocity';
        neo := None |}.

(** [self.neo.attr]: an attribute of the NEO, or [AttributeError] on [None]. *)
Definition neo_attr {A : Type} (self : t) (attr : NearEarthObject.t -> A)
    : result A :=
  match neo self with
  | Some n => Ok (attr n)
  | None => Raise AttributeError
  end.

(** The text of [self.neo] in an f-string: [str] of the NEO, or of [None]. *)
Definition format_neo (self : t) : string :=
  match neo self with
  | Some n => NearEarthObject.__str__ n
  | None => "None"
  end.

Definition fullname (self : t) : string :=
  _designation self ++ ": " ++ format_neo self.

Definition time_str (self : t) : string := datetime_to_str (time self).

Definition json_serialize (self : t) : result pyval :=
  let datetime_utc := time_str self in
  let distance_au := distance self in
  let velocity_km_s := velocity self in
  designation <- neo_attr self NearEarthObject.designation ;;
  name <- neo_attr self NearEarthObject.name ;;
  diameter_km <- neo_attr self NearEarthObject.diameter ;;
  potentially_hazardous <- neo_attr self NearEarthObject.hazardous ;;
  Ok (PyDict
        [("datetime_utc", PyStr datetime_utc);
         ("distance_au", PyFloat distance_au);
         ("velocity_km_s", PyFloat velocity_km_s);
         ("neo", PyDict
                   [("designation", PyStr designation);
                    ("name", of_optstr name);
                    ("diameter_km", PyFloat diameter_km);
                    ("potentially_hazardous", PyBool potentially_hazardous)])]).

Definition csv_serialize (self : t) : result pyval :=
  let datetime_utc := time_str self in
  let distance_au := distance self in
  let velocity_km_s := velocity self in
  designation <- neo_attr self NearEarthObject.designation ;;
  name <- neo_attr self NearEarthObject.name ;;
  diameter_km <- neo_attr self NearEarthObject.diameter ;;
  potentially_hazardous <- neo_attr self NearEarthObject.hazardous ;;
  Ok (PyDict
        [("datetime_utc", PyStr datetime_utc);
         ("distance_au", PyFloat distance_au);
         ("velocity_km_s", PyFloat velocity_km_s);
         ("designation", PyStr designation);
         ("name", of_optstr name);
         ("diameter_km", PyFloat diameter_km);
         ("potentially_hazardous", PyBool potentially_hazardous)]).

End Methods.

End CloseApproach.

(** ** CloseApproach.__str__ and the builtin it adds

    [__str__] of an approach rounds the distance and the velocity with the
    builtin [round], given a number of digits; on a float that call returns a
    float and does not raise. *)

Class Rounding : Type := {
  (** [round(x, ndigits)] on a float [x]. *)
  round : pyfloat -> Z -> pyfloat
}.

Definition CloseApproach__str__ `{Builtins} `{Rounding}
    (self : CloseApproach.t) : string :=
  "At " ++ CloseApproach.time_str self ++ " NearEarthObject "
  ++ CloseApproach.fullname self ++ " approaches earth at a distance of "
  ++ float_repr (round (CloseApproach.distance self) 4) ++ " au and a velocity of "
  ++ float_repr (round (CloseApproach.velocity self) 4) ++ " km/s ".

(** A reference instance of [round]: the decimal with [ndigits] places
    nearest to the exact value of the float, ties to even, converted back to
    the nearest float. *)
Definition round_ref (x : pyfloat) (ndigits : Z) : pyfloat :=
  match x with
  | S754_finite s m e =>
      let num := if (0 <=? e)%Z then (Zpos m * 2 ^ e)%Z else Zpos m in
      let den := if (0 <=? e)%Z then 1%Z else (2 ^ (- e))%Z in
      let n := if (0 <=? ndigits)%Z then (num * 10 ^ ndigits)%Z else num in
      let d := if (0 <=? ndigits)%Z then den else (den * 10 ^ (- ndigits))%Z in
      let (q, r) := Z.div_eucl n d in
      let up :=
        match (2 * r ?= d)%Z with
        | Gt => true
        | Eq => Z.odd q
        | Lt => false
        end in
      decimal_to_float s (if up then (q + 1)%Z else q) (- ndigits)
  | _ => x
  end.

Definition reference_rounding : Rounding := {| round := round_ref |}.

(** [s] ends with [suffix]. *)
Definition has_suffix (s suffix : string) : Prop :=
  exists prefix, s = prefix ++ suffix.

(** ** Sample objects

    A NEO of the data set, as the constructor builds it from the record
    designation 433, name Eros, diameter 16.84, hazardous N, once the database
    has attached the approach of identity 0 to it; and that approach, linked
    to it. *)

Definition eros : NearEarthObject.t :=
  {| NearEarthObject.designation := "433";
     NearEarthObject.name := Some "Eros";
     NearEarthObject.diameter := S754_finite false 4740038607807447 (-48);
     NearEarthObject.hazardous := false;
     NearEarthObject.approaches := [0%nat] |}.

Definition eros_approach : CloseApproach.t :=
  {| CloseApproach._designation := "433";
     CloseApproach.time := mkDatetime 2020 1 1 12 30;
     CloseApproach.distance := S754_finite false 8894984828236855 (-58);
     CloseApproach.velocity := S754_finite false 6305039478318694 (-49);
     CloseApproach.neo := Some eros |}.

(** * Properties *)

(** ** Results *)

Lemma bind_Ok {A B : Type} (m : result A) (k : A -> result B) (b : B) :
  bind m k = Ok b -> exists a, m = Ok a /\ k a = Ok b.
Proof.
  destruct m as [a | e]; simpl; intros Hk.
  - exists a. split; [reflexivity | exact Hk].
  - discriminate Hk.
Qed.

Ltac bind_inv H :=
  let a := fresh "a" in
  let Ha := fresh "Ha" in
  apply bind_Ok in H; destruct H as (a & Ha & H).

(** ** Strings *)

Lemma truthy_len (s : string) : truthy (len s) = false <-> s = "".
Proof.
  destruct s; simpl; split; intros E; try reflexivity; discriminate E.
Qed.

Lemma append_nil_r (s : string) : s ++ "" = s.
Proof.
  induction s as [| c s IH]; simpl; [reflexivity | now rewrite IH].
Qed.

Lemma append_inv_head (s u v : string) : s ++ u = s ++ v -> u = v.
Proof.
  induction s as [| c s IH]; simpl; intros E; [exact E |].
  injection E as E. now apply IH.
Qed.

Lemma append_length (s u : string) :
  String.length (s ++ u) = (String.length s + String.length u)%nat.
Proof.
  induction s as [| c s IH]; simpl; [reflexivity | now rewrite IH].
Qed.

Lemma append_assoc (s u v : string) : (s ++ u) ++ v = s ++ u ++ v.
Proof.
  induction s as [| c s IH]; simpl; [reflexivity | now rewrite IH].
Qed.

(** ** Digits and fixed-width numbers *)

Lemma digit_value_char (d : nat) :
  (d < 10)%nat -> digit_value (digit_char d) = Some d.
Proof.
  intros Hd. do 10 (destruct d as [| d]; [reflexivity |]). lia.
Qed.

Lemma digit_char_value (c : ascii) (d : nat) :
  digit_value c = Some d -> digit_char d = c /\ (d < 10)%nat.
Proof.
  unfold digit_value, digit_char.
  destruct (Nat.leb 48 (nat_of_ascii c)) eqn:Hlo; cbn [andb]; [| discriminate].
  destruct (Nat.leb (nat_of_ascii c) 57) eqn:Hhi; [| discriminate].
  apply Nat.leb_le in Hlo, Hhi. intros E. injection E as <-. split; [| lia].
  replace (48 + (nat_of_ascii c - 48))%nat with (nat_of_ascii c) by lia.
  apply ascii_nat_embedding.
Qed.

Lemma read_two_digits (n : nat) (rest : string) :
  (n < 100)%nat -> read_number 2 0 (two_digits n ++ rest) = Some (n, rest).
Proof.
  intros Hn. unfold two_digits. cbn [append read_number].
  rewrite digit_value_char by (apply Nat.mod_upper_bound; lia).
  rewrite digit_value_char by (apply Nat.mod_upper_bound; lia).
  do 2 f_equal.
  pose proof (Nat.div_mod_eq n 10) as E.
  rewrite (Nat.mod_small (n / 10) 10) by (apply Nat.Div0.div_lt_upper_bound; lia).
  lia.
Qed.

Lemma read_four_digits (n : nat) (rest : string) :
  (n < 100 * 100)%nat -> read_number 4 0 (four_digits n ++ rest) = Some (n, rest).
Proof.
  intros Hn. unfold four_digits, two_digits. cbn [append read_number].
  repeat rewrite digit_value_char by (apply Nat.mod_upper_bound; lia).
  do 2 f_equal.
  pose proof (Nat.div_mod_eq n 10) as E1.
  pose proof (Nat.div_mod_eq (n / 10) 10) as E2.
  pose proof (Nat.div_mod_eq (n / 100) 10) as E3.
  pose proof (Nat.div_mod_eq (n / 1000) 10) as E4.
  assert (n / 100 = n / 10 / 10)%nat as E5 by (rewrite Nat.Div0.div_div; reflexivity).
  assert (n / 1000 = n / 100 / 10)%nat as E6 by (rewrite Nat.Div0.div_div; reflexivity).
  assert (n / 1000 < 10)%nat as E7 by (apply Nat.Div0.div_lt_upper_bound; lia).
  rewrite (Nat.mod_small (n / 1000) 10) in * by exact E7.
  lia.
Qed.

Lemma decimal_step (a d : nat) :
  (d < 10)%nat -> ((10 * a + d) / 10 = a /\ (10 * a + d) mod 10 = d)%nat.
Proof.
  intros Hd. split; symmetry.
  - apply (Nat.div_unique _ 10 a d); [exact Hd | reflexivity].
  - apply (Nat.mod_unique _ 10 a d); [exact Hd | reflexivity].
Qed.

Lemma read_two_digits_inv (s rest : string) (n : nat) :
  read_number 2 0 s = Some (n, rest) ->
  s = two_digits n ++ rest /\ (n < 100)%nat.
Proof.
  destruct s as [| c1 [| c2 s]]; cbn [read_number];
    try discriminate; try (destruct (digit_value c1); discriminate).
  destruct (digit_value c1) as [d1 |] eqn:E1; [| discriminate].
  destruct (digit_value c2) as [d2 |] eqn:E2; [| discriminate].
  intros E. injection E as En <-.
  apply digit_char_value in E1 as [<- H1], E2 as [<- H2].
  assert (n = 10 * d1 + d2)%nat as -> by lia. clear En.
  destruct (decimal_step d1 d2 H2) as [Q2 R2].
  unfold two_digits. cbn [append].
  rewrite Q2, R2, (Nat.mod_small d1 10 H1). split; [reflexivity | lia].
Qed.

Lemma read_four_digits_inv (s rest : string) (n : nat) :
  read_number 4 0 s = Some (n, rest) ->
  s = four_digits n ++ rest /\ (n < 100 * 100)%nat.
Proof.
  destruct s as [| c1 [| c2 [| c3 [| c4 s]]]]; cbn [read_number];
    try discriminate;
    try (repeat match goal with
                | |- context [digit_value ?c] => destruct (digit_value c)
                end; discriminate).
  destruct (digit_value c1) as [d1 |] eqn:E1; [| discriminate].
  destruct (digit_value c2) as [d2 |] eqn:E2; [| discriminate].
  destruct (digit_value c3) as [d3 |] eqn:E3; [| discriminate].
  destruct (digit_value c4) as [d4 |] eqn:E4; [| discriminate].
  intros E. injection E as En <-.
  apply digit_char_value in E1 as [<- H1], E2 as [<- H2],
      E3 as [<- H3], E4 as [<- H4].
  assert (n = 10 * (10 * (10 * d1 + d2) + d3) + d4)%nat as -> by lia.
  clear En.
  destruct (decimal_step (10 * (10 * d1 + d2) + d3) d4 H4) as [Q4 R4].
  destruct (decimal_step (10 * d1 + d2) d3 H3) as [Q3 R3].
  destruct (decimal_step d1 d2 H2) as [Q2 R2].
  unfold four_digits, two_digits. cbn [append].
  change 1000%nat with (10 * (10 * 10))%nat.
  change 100%nat with (10 * 10)%nat at 1.
  rewrite <- !Nat.Div0.div_div.
  rewrite !Q4, R4, !Q3, R3, Q2, R2, (Nat.mod_small d1 10 H1).
  split; [reflexivity | lia].
Qed.

(** ** Month names *)

Lemma index_of_nth (s : string) (l : list string) (i k : nat) :
  index_of s l i = Some k ->
  (i <= k < i + length l)%nat /\ nth (k - i) l "" = s.
Proof.
  revert i. induction l as [| x l IH]; intros i; cbn [index_of];
    [discriminate |].
  destruct (String.eqb s x) eqn:E.
  - intros Ek. injection Ek as <-. apply String.eqb_eq in E. subst x.
    rewrite Nat.sub_diag. cbn [nth length]. split; [lia | reflexivity].
  - intros Ek. apply IH in Ek as [Hk Hn]. cbn [length]. split; [lia |].
    replace (k - i)%nat with (S (k - S i)) by lia. exact Hn.
Qed.

Lemma read_month_abbr (m : nat) (rest : string) :
  (1 <= m <= 12)%nat -> read_month (month_abbr m ++ rest) = Some (m, rest).
Proof.
  intros Hm.
  do 13 (destruct m as [| m]; [first [lia | reflexivity] |]). lia.
Qed.

Lemma read_month_inv (s rest : string) (m : nat) :
  read_month s = Some (m, rest) ->
  s = month_abbr m ++ rest /\ (1 <= m <= 12)%nat.
Proof.
  destruct s as [| a [| b [| c s]]]; try discriminate.
  unfold read_month, month_of_abbr.
  destruct (index_of _ month_names 1) as [k |] eqn:E; [| discriminate].
  intros Em. injection Em as <- <-.
  apply index_of_nth in E as [Hk Hn]. cbn [length month_names] in Hk.
  unfold month_abbr. rewrite Hn. split; [reflexivity | lia].
Qed.

Lemma expect_inv (c : ascii) (s rest : string) :
  expect c s = Some rest -> s = String c rest.
Proof.
  destruct s as [| c' s]; cbn [expect]; [discriminate |].
  destruct (Ascii.eqb c c') eqn:E; [| discriminate].
  apply Ascii.eqb_eq in E. intros Er. injection Er as <-. now subst c'.
Qed.

Lemma expect_cons (c : ascii) (s : string) : expect c (String c s) = Some s.
Proof. cbn [expect]. now rewrite Ascii.eqb_refl. Qed.

(** ** The date-time converters are inverse to each other *)

Lemma days_in_month_le (y m : nat) : (days_in_month y m <= 31)%nat.
Proof.
  unfold days_in_month.
  repeat (destruct m as [| m]; try destruct (is_leap y); try lia).
Qed.

Lemma parse_datetime_to_str (t : datetime) :
  valid_datetime t = true -> parse_datetime (datetime_to_str t) = Some t.
Proof.
  intros Hv. pose proof Hv as Hv'. unfold valid_datetime in Hv'.
  repeat (apply andb_prop in Hv' as [Hv' ?]).
  repeat match goal with
         | E : Nat.leb _ _ = true |- _ => apply Nat.leb_le in E
         | E : Nat.ltb _ _ = true |- _ => apply Nat.ltb_lt in E
         end.
  pose proof (days_in_month_le (year t) (month t)) as Hd.
  unfold parse_datetime, datetime_to_str.
  rewrite read_four_digits by assumption.
  cbn [append]. rewrite expect_cons.
  rewrite read_month_abbr by lia.
  cbn [append]. rewrite expect_cons.
  rewrite read_two_digits by lia.
  cbn [append]. rewrite expect_cons.
  rewrite read_two_digits by lia.
  cbn [append]. rewrite expect_cons.
  rewrite <- (append_nil_r (two_digits (minute t))).
  rewrite read_two_digits by lia.
  destruct t as [y mo d h mi]. cbn [year month day hour minute] in *.
  now rewrite Hv.
Qed.

Lemma parse_datetime_inv (s : string) (t : datetime) :
  parse_datetime s = Some t ->
  datetime_to_str t = s /\ valid_datetime t = true.
Proof.
  unfold parse_datetime.
  destruct (read_number 4 0 s) as [[y s1] |] eqn:Ey; [| discriminate].
  destruct (expect "-" s1) as [s2 |] eqn:E1; [| discriminate].
  destruct (read_month s2) as [[mo s3] |] eqn:Emo; [| discriminate].
  destruct (expect "-" s3) as [s4 |] eqn:E2; [| discriminate].
  destruct (read_number 2 0 s4) as [[d s5] |] eqn:Ed; [| discriminate].
  destruct (expect " " s5) as [s6 |] eqn:E3; [| discriminate].
  destruct (read_number 2 0 s6) as [[h s7] |] eqn:Eh; [| discriminate].
  destruct (expect ":" s7) as [s8 |] eqn:E4; [| discriminate].
  destruct (read_number 2 0 s8) as [[mi s9] |] eqn:Emi; [| discriminate].
  destruct s9; [| discriminate].
  destruct (valid_datetime (mkDatetime y mo d h mi)) eqn:Hv; [| discriminate].
  intros E. injection E as <-. split; [| exact Hv].
  apply read_four_digits_inv in Ey as [-> _].
  apply expect_inv in E1 as ->, E2 as ->, E3 as ->, E4 as ->.
  apply read_month_inv in Emo as [-> _].
  apply read_two_digits_inv in Ed as [-> _], Eh as [-> _], Emi as [-> _].
  unfold datetime_to_str. cbn [year month day hour minute append].
  now rewrite append_nil_r.
Qed.

(** A time string converts exactly when it is the text of a calendar
    timestamp, and then formatting and parsing undo each other. *)
Lemma cd_to_datetime_Ok (s : string) (t : datetime) :
  cd_to_datetime s = Ok t <-> valid_datetime t = true /\ datetime_to_str t = s.
Proof.
  unfold cd_to_datetime. split.
  - destruct (parse_datetime s) as [t' |] eqn:E; [| discriminate].
    intros Et. injection Et as ->. apply parse_datetime_inv in E. tauto.
  - intros [Hv <-]. now rewrite parse_datetime_to_str.
Qed.

(** ** NearEarthObject *)

Section NearEarthObject_properties.
Context `{Builtins}.

(** What a constructor call that returns has computed. *)
Lemma NearEarthObject_init_Ok (d nm diam hz : string) (info : kwargs)
    (self : NearEarthObject.t) :
  NearEarthObject.__init__ d nm diam hz info = Ok self ->
  exists f,
    (if truthy (len diam) then float diam else float "nan") = Ok f
    /\ self = NearEarthObject.mk d (if truthy (len nm) then Some nm else None)
                f (if String.eqb hz "Y" then true else false) [].
Proof.
  unfold NearEarthObject.__init__. intros E. bind_inv E.
  exists a. split; [exact Ha | now injection E as <-].
Qed.

(** The constructor returns whenever the diameter is empty or converts. *)
Lemma NearEarthObject_init_total (d nm diam hz : string) (info : kwargs) :
  float_nan_is_nan ->
  diam = "" \/ succeeds (float diam) ->
  succeeds (NearEarthObject.__init__ d nm diam hz info).
Proof.
  intros Hnan Hd. unfold NearEarthObject.__init__.
  destruct (truthy (len diam)) eqn:Ht.
  - destruct Hd as [-> | [f ->]]; [discriminate Ht |]. now eexists.
  - rewrite Hnan. now eexists.
Qed.

(** C1. The [hazardous] attribute of a constructed NEO is true exactly when
    the hazardous input string is "Y"; any other input, the empty string
    among them, gives false. *)
Theorem hazardous_iff_Y (d nm diam hz : string) (info : kwargs)
    (self : NearEarthObject.t) :
  NearEarthObject.__init__ d nm diam hz info = Ok self ->
  (NearEarthObject.hazardous self = true <-> hz = "Y")
  /\ (hz <> "Y" -> NearEarthObject.hazardous self = false).
Proof.
  intros E. apply NearEarthObject_init_Ok in E as (f & _ & ->).
  cbn [NearEarthObject.hazardous].
  destruct (String.eqb hz "Y") eqn:Ehz.
  - apply String.eqb_eq in Ehz. split; [tauto | intros Hn; contradiction].
  - apply String.eqb_neq in Ehz. split; [| reflexivity].
    split; [discriminate | intros Hy; contradiction].
Qed.

(** C2. The [name] attribute of a constructed NEO is [None] when the name
    input is empty, and the input itself when it is not; it is never the empty
    string. *)
Theorem name_normalised (d nm diam hz : string) (info : kwargs)
    (self : NearEarthObject.t) :
  NearEarthObject.__init__ d nm diam hz info = Ok self ->
  (nm = "" -> NearEarthObject.name self = None)
  /\ (nm <> "" -> NearEarthObject.name self = Some nm)
  /\ NearEarthObject.name self <> Some "".
Proof.
  intros E. apply NearEarthObject_init_Ok in E as (f & _ & ->).
  cbn [NearEarthObject.name].
  destruct (truthy (len nm)) eqn:Ht.
  - assert (nm <> "") as Hnm.
    { intros Hnm. apply truthy_len in Hnm. congruence. }
    repeat split; [contradiction | congruence].
  - apply truthy_len in Ht. subst nm.
    repeat split; [intros Hn; now contradiction Hn | discriminate].
Qed.

(** C3. With an empty diameter input the constructor returns a NEO whose
    [diameter] is the NaN: it differs from itself under [!=] and is not 0.0.
    With a non-empty input that [float] converts, it returns a NEO whose
    [diameter] is the converted value. *)
Theorem diameter_normalised (d nm diam hz : string) (info : kwargs) :
  float_nan_is_nan ->
  (diam = "" ->
   exists self,
     NearEarthObject.__init__ d nm diam hz info = Ok self
     /\ NearEarthObject.diameter self = nan
     /\ float_ne (NearEarthObject.diameter self)
          (NearEarthObject.diameter self) = true
     /\ float_eq (NearEarthObject.diameter self) zero = false
     /\ NearEarthObject.diameter self <> zero)
  /\ (forall f,
        diam <> "" ->
        float diam = Ok f ->
        exists self,
          NearEarthObject.__init__ d nm diam hz info = Ok self
          /\ NearEarthObject.diameter self = f).
Proof.
  intros Hnan. unfold NearEarthObject.__init__. split.
  - intros ->. cbn [len String.length truthy Nat.eqb negb].
    rewrite Hnan. cbn [bind]. eexists. split; [reflexivity |].
    cbn [NearEarthObject.diameter]. repeat split. discriminate.
  - intros f Hd Hf.
    destruct (truthy (len diam)) eqn:Ht.
    + rewrite Hf. cbn [bind]. eexists. split; reflexivity.
    + apply truthy_len in Ht. contradiction.
Qed.

(** C7. The [fullname] of a NEO that has a name is its designation, a blank
    and the name in parentheses; the NEO constructed with designation "433"
    and name "Eros" has the fullname "433 (Eros)". *)
Theorem fullname_with_name :
  (forall (self : NearEarthObject.t) (nm : string),
      NearEarthObject.name self = Some nm ->
      NearEarthObject.fullname self
      = NearEarthObject.designation self ++ " (" ++ nm ++ ")")
  /\ (forall (diam hz : string) (info : kwargs) (self : NearEarthObject.t),
        NearEarthObject.__init__ "433" "Eros" diam hz info = Ok self ->
        NearEarthObject.fullname self = "433 (Eros)").
Proof.
  split.
  - intros self nm Hnm. unfold NearEarthObject.fullname. now rewrite Hnm.
  - intros diam hz info self E.
    apply NearEarthObject_init_Ok in E as (f & _ & ->). reflexivity.
Qed.

(** C10. The [fullname] of a NEO constructed with an empty name is its
    designation followed by " (None)": the parentheses hold the text None,
    they are not empty, and the designation does not stand alone. *)
Theorem fullname_without_name (d diam hz : string) (info : kwargs)
    (self : NearEarthObject.t) :
  NearEarthObject.__init__ d "" diam hz info = Ok self ->
  NearEarthObject.fullname self = d ++ " (None)"
  /\ NearEarthObject.fullname self <> d ++ " ()"
  /\ NearEarthObject.fullname self <> d.
Proof.
  intros E. apply NearEarthObject_init_Ok in E as (f & _ & ->).
  assert (NearEarthObject.fullname
            (NearEarthObject.mk d
               (if truthy (len "") then Some "" else None) f
               (if String.eqb hz "Y" then true else false) [])
          = d ++ " (None)") as -> by reflexivity.
  repeat split.
  - intros E. apply append_inv_head in E. discriminate E.
  - intros E. apply (f_equal String.length) in E.
    rewrite append_length in E. cbn [String.length] in E. lia.
Qed.

(** C9, as the code has it.  A constructed NEO keeps the designation it was
    given, whatever it is, so its designation is non-empty exactly when the
    argument is; its collection of approaches is empty. *)
Theorem designation_kept_approaches_empty (d nm diam hz : string)
    (info : kwargs) (self : NearEarthObject.t) :
  NearEarthObject.__init__ d nm diam hz info = Ok self ->
  NearEarthObject.designation self = d
  /\ (NearEarthObject.designation self <> "" <-> d <> "")
  /\ NearEarthObject.approaches self = [].
Proof.
  intros E. apply NearEarthObject_init_Ok in E as (f & _ & ->).
  cbn [NearEarthObject.designation NearEarthObject.approaches].
  repeat split; trivial.
Qed.

End NearEarthObject_properties.

(** ** CloseApproach *)

Section CloseApproach_properties.
Context `{Builtins}.

(** What a constructor call that returns has computed: the approach is not
    linked yet. *)
Lemma CloseApproach_init_Ok (d t dist vel : string) (info : kwargs)
    (self : CloseApproach.t) :
  CloseApproach.__init__ d t dist vel info = Ok self ->
  exists t' dist' vel',
    cd_to_datetime t = Ok t' /\ float dist = Ok dist' /\ float vel = Ok vel'
    /\ self = CloseApproach.mk d t' dist' vel' None.
Proof.
  unfold CloseApproach.__init__. intros E.
  apply bind_Ok in E as (t' & Ht & E).
  apply bind_Ok in E as (dist' & Hd & E).
  apply bind_Ok in E as (vel' & Hv & E).
  exists t', dist', vel'. repeat split; trivial. now injection E as <-.
Qed.

(** The constructor returns whenever its three conversions do. *)
Lemma CloseApproach_init_total (d t dist vel : string) (info : kwargs) :
  succeeds (cd_to_datetime t) -> succeeds (float dist) ->
  succeeds (float vel) ->
  succeeds (CloseApproach.__init__ d t dist vel info).
Proof.
  intros [t' Ht] [dist' Hd] [vel' Hv]. unfold CloseApproach.__init__.
  rewrite Ht, Hd, Hv. now eexists.
Qed.

Lemma neo_attr_linked {A : Type} (self : CloseApproach.t)
    (n : NearEarthObject.t) (attr : NearEarthObject.t -> A) :
  CloseApproach.neo self = Some n ->
  CloseApproach.neo_attr self attr = Ok (attr n).
Proof. unfold CloseApproach.neo_attr. now intros ->. Qed.

Lemma neo_attr_unlinked {A : Type} (self : CloseApproach.t)
    (attr : NearEarthObject.t -> A) :
  CloseApproach.neo self = None ->
  CloseApproach.neo_attr self attr = Raise AttributeError.
Proof. unfold CloseApproach.neo_attr. now intros ->. Qed.

Lemma json_serialize_linked (self : CloseApproach.t) (n : NearEarthObject.t) :
  CloseApproach.neo self = Some n ->
  CloseApproach.json_serialize self
  = Ok (PyDict
          [("datetime_utc", PyStr (CloseApproach.time_str self));
           ("distance_au", PyFloat (CloseApproach.distance self));
           ("velocity_km_s", PyFloat (CloseApproach.velocity self));
           ("neo", PyDict
              [("designation", PyStr (NearEarthObject.designation n));
               ("name", of_optstr (NearEarthObject.name n));
               ("diameter_km", PyFloat (NearEarthObject.diameter n));
               ("potentially_hazardous",
                 PyBool (NearEarthObject.hazardous n))])]).
Proof.
  intros Hn. unfold CloseApproach.json_serialize.
  now rewrite !(neo_attr_linked self n) by exact Hn.
Qed.

Lemma csv_serialize_linked (self : CloseApproach.t) (n : NearEarthObject.t) :
  CloseApproach.neo self = Some n ->
  CloseApproach.csv_serialize self
  = Ok (PyDict
          [("datetime_utc", PyStr (CloseApproach.time_str self));
           ("distance_au", PyFloat (CloseApproach.distance self));
           ("velocity_km_s", PyFloat (CloseApproach.velocity self));
           ("designation", PyStr (NearEarthObject.designation n));
           ("name", of_optstr (NearEarthObject.name n));
           ("diameter_km", PyFloat (NearEarthObject.diameter n));
           ("potentially_hazardous",
             PyBool (NearEarthObject.hazardous n))]).
Proof.
  intros Hn. unfold CloseApproach.csv_serialize.
  now rewrite !(neo_attr_linked self n) by exact Hn.
Qed.

(** C4. For a linked approach [json_serialize] returns the mapping with
    exactly the keys datetime_utc, distance_au, velocity_km_s and neo, the last
    one a mapping with the keys designation, name, diameter_km and
    potentially_hazardous that hold the attributes of the linked NEO, so that
    subscripting by neo and then by designation gives the NEO's designation;
    [csv_serialize] returns the flat mapping, with the four fields of the NEO
    next to the three of the approach. *)
Theorem serialize_linked (self : CloseApproach.t) (n : NearEarthObject.t) :
  CloseApproach.neo self = Some n ->
  CloseApproach.json_serialize self
  = Ok (PyDict
          [("datetime_utc", PyStr (CloseApproach.time_str self));
           ("distance_au", PyFloat (CloseApproach.distance self));
           ("velocity_km_s", PyFloat (CloseApproach.velocity self));
           ("neo", PyDict
              [("designation", PyStr (NearEarthObject.designation n));
               ("name", of_optstr (NearEarthObject.name n));
               ("diameter_km", PyFloat (NearEarthObject.diameter n));
               ("potentially_hazardous",
                 PyBool (NearEarthObject.hazardous n))])])
  /\ (j <- CloseApproach.json_serialize self ;; keys j)
     = Ok ["datetime_utc"; "distance_au"; "velocity_km_s"; "neo"]
  /\ (j <- CloseApproach.json_serialize self ;;
      j_neo <- getitem j "neo" ;;
      keys j_neo)
     = Ok ["designation"; "name"; "diameter_km"; "potentially_hazardous"]
  /\ (j <- CloseApproach.json_serialize self ;;
      j_neo <- getitem j "neo" ;;
      getitem j_neo "designation")
     = Ok (PyStr (NearEarthObject.designation n))
  /\ CloseApproach.csv_serialize self
     = Ok (PyDict
             [("datetime_utc", PyStr (CloseApproach.time_str self));
              ("distance_au", PyFloat (CloseApproach.distance self));
              ("velocity_km_s", PyFloat (CloseApproach.velocity self));
              ("designation", PyStr (NearEarthObject.designation n));
              ("name", of_optstr (NearEarthObject.name n));
              ("diameter_km", PyFloat (NearEarthObject.diameter n));
              ("potentially_hazardous",
                PyBool (NearEarthObject.hazardous n))])
  /\ (c <- CloseApproach.csv_serialize self ;; keys c)
     = Ok ["datetime_utc"; "distance_au"; "velocity_km_s"; "designation";
           "name"; "diameter_km"; "potentially_hazardous"].
Proof.
  intros Hn.
  rewrite (json_serialize_linked self n Hn), (csv_serialize_linked self n Hn).
  repeat split.
Qed.

(** C5. Both serialisers raise the null-reference error on an approach whose
    [neo] is still [None], and both return on an approach whose [neo] is
    linked. *)
Theorem serialize_requires_neo (self : CloseApproach.t) :
  (CloseApproach.neo self = None ->
   CloseApproach.json_serialize self = Raise AttributeError
   /\ CloseApproach.csv_serialize self = Raise AttributeError)
  /\ (forall n : NearEarthObject.t,
        CloseApproach.neo self = Some n ->
        succeeds (CloseApproach.json_serialize self)
        /\ succeeds (CloseApproach.csv_serialize self)).
Proof.
  split.
  - intros Hn.
    unfold CloseApproach.json_serialize, CloseApproach.csv_serialize.
    rewrite !neo_attr_unlinked by exact Hn. split; reflexivity.
  - intros n Hn.
    rewrite (json_serialize_linked self n Hn), (csv_serialize_linked self n Hn).
    split; eexists; reflexivity.
Qed.

(** C6. The time of a constructed approach survives formatting and parsing:
    parsing [time_str] gives the stored date-time again, and [time_str] is the
    time string the approach was constructed from; so an approach constructed
    from "2020-Jan-01 12:30" has exactly that [time_str]. *)
Theorem time_str_round_trip (d t dist vel : string) (info : kwargs)
    (self : CloseApproach.t) :
  CloseApproach.__init__ d t dist vel info = Ok self ->
  cd_to_datetime (CloseApproach.time_str self) = Ok (CloseApproach.time self)
  /\ CloseApproach.time_str self = t
  /\ (t = "2020-Jan-01 12:30" ->
      CloseApproach.time_str self = "2020-Jan-01 12:30"
      /\ CloseApproach.time self = mkDatetime 2020 1 1 12 30).
Proof.
  intros E. apply CloseApproach_init_Ok in E as (t' & f1 & f2 & Ht & _ & _ & ->).
  unfold CloseApproach.time_str. cbn [CloseApproach.time].
  pose proof Ht as Ht'. apply cd_to_datetime_Ok in Ht' as [Hv Hs].
  rewrite Hs. split; [exact Ht | split; [reflexivity |]].
  intros ->. split; [reflexivity |].
  vm_compute in Ht. now injection Ht as <-.
Qed.

(** The text of a NEO: the summary with its fullname, its diameter and the
    hazard phrase. *)
Lemma NearEarthObject_str_eq (n : NearEarthObject.t) :
  NearEarthObject.__str__ n
  = "NEO " ++ NearEarthObject.designation n ++ " ("
    ++ format_optstr (NearEarthObject.name n) ++ ") has a diameter of "
    ++ float_repr (NearEarthObject.diameter n) ++ " km and "
    ++ (if NearEarthObject.hazardous n then "is" else "is not")
    ++ " potentially hazardous".
Proof.
  unfold NearEarthObject.__str__, NearEarthObject.fullname.
  repeat (progress (rewrite ?append_assoc; cbn [append])). reflexivity.
Qed.

(** The [fullname] of an approach that is not linked yet holds the text of
    [None]. *)
Lemma CloseApproach_fullname_unlinked (self : CloseApproach.t) :
  CloseApproach.neo self = None ->
  CloseApproach.fullname self = CloseApproach._designation self ++ ": None".
Proof.
  intros Hn. unfold CloseApproach.fullname, CloseApproach.format_neo.
  now rewrite Hn.
Qed.

(** C8. The [fullname] of an approach is its designation, a colon and a blank,
    and the text of its [neo]: for a linked approach that text is the whole
    summary of the NEO, with its diameter and hazard phrase, and not the
    NEO's name. *)
Theorem CloseApproach_fullname_embeds_str (self : CloseApproach.t) :
  CloseApproach.fullname self
  = CloseApproach._designation self ++ ": " ++ CloseApproach.format_neo self
  /\ (forall n : NearEarthObject.t,
        CloseApproach.neo self = Some n ->
        CloseApproach.fullname self
        = CloseApproach._designation self ++ ": NEO "
          ++ NearEarthObject.designation n ++ " ("
          ++ format_optstr (NearEarthObject.name n) ++ ") has a diameter of "
          ++ float_repr (NearEarthObject.diameter n) ++ " km and "
          ++ (if NearEarthObject.hazardous n then "is" else "is not")
          ++ " potentially hazardous"
        /\ CloseApproach.fullname self
           = CloseApproach._designation self ++ ": "
             ++ NearEarthObject.__str__ n
        /\ CloseApproach.fullname self
           <> CloseApproach._designation self ++ ": "
              ++ format_optstr (NearEarthObject.name n)).
Proof.
  split; [reflexivity |]. intros n Hn.
  unfold CloseApproach.fullname, CloseApproach.format_neo. rewrite Hn.
  repeat split.
  - now rewrite NearEarthObject_str_eq.
  - intros E. apply append_inv_head in E. cbn [append] in E.
    injection E as E. rewrite NearEarthObject_str_eq in E.
    apply (f_equal String.length) in E.
    rewrite !append_length in E. cbn [String.length] in E. lia.
Qed.

End CloseApproach_properties.

(** * The properties at work on the reference builtins *)

(** The scenarios of the data set: a named, harmless NEO and an anonymous,
    hazardous one of unknown diameter. *)
Example construct_eros :
  NearEarthObject.__init__ (H := reference) "433" "Eros" "16.84" "N" []
  = Ok {| NearEarthObject.designation := "433";
          NearEarthObject.name := Some "Eros";
          NearEarthObject.diameter := NearEarthObject.diameter eros;
          NearEarthObject.hazardous := false;
          NearEarthObject.approaches := [] |}.
Proof. vm_compute. reflexivity. Qed.

Example construct_anonymous :
  NearEarthObject.__init__ (H := reference) "2020 AB" "" "" "Y" []
  = Ok {| NearEarthObject.designation := "2020 AB";
          NearEarthObject.name := None;
          NearEarthObject.diameter := nan;
          NearEarthObject.hazardous := true;
          NearEarthObject.approaches := [] |}.
Proof. vm_compute. reflexivity. Qed.

Example construct_not_numeric :
  NearEarthObject.__init__ (H := reference) "433" "Eros" "wide" "N" []
  = Raise ValueError.
Proof. vm_compute. reflexivity. Qed.

Example str_eros :
  NearEarthObject.__str__ (H := reference) eros
  = "NEO 433 (Eros) has a diameter of 16.84 km and is not potentially hazardous".
Proof. vm_compute. reflexivity. Qed.

Example construct_approach :
  CloseApproach.__init__ (H := reference)
    "433" "2020-Jan-01 12:30" "0.030860678" "11.2" []
  = Ok {| CloseApproach._designation := "433";
          CloseApproach.time := mkDatetime 2020 1 1 12 30;
          CloseApproach.distance := CloseApproach.distance eros_approach;
          CloseApproach.velocity := CloseApproach.velocity eros_approach;
          CloseApproach.neo := None |}.
Proof. vm_compute. reflexivity. Qed.

Example construct_approach_bad_time :
  CloseApproach.__init__ (H := reference)
    "433" "2021-Feb-29 12:30" "0.030860678" "11.2" []
  = Raise ValueError.
Proof. vm_compute. reflexivity. Qed.

(** C1 at a hazardous and at a harmless record. *)
Lemma hazardous_iff_Y_witness :
  exists self other,
    NearEarthObject.__init__ (H := reference) "2020 AB" "" "" "Y" [] = Ok self
    /\ NearEarthObject.__init__ (H := reference) "433" "Eros" "16.84" "" []
       = Ok other
    /\ NearEarthObject.hazardous self = true
    /\ NearEarthObject.hazardous other = false.
Proof.
  eexists. eexists.
  split; [vm_compute; reflexivity |]. split; [vm_compute; reflexivity |].
  split.
  - apply (hazardous_iff_Y (H := reference) "2020 AB" "" "" "Y" [] _).
    + vm_compute. reflexivity.
    + reflexivity.
  - apply (hazardous_iff_Y (H := reference) "433" "Eros" "16.84" "" [] _).
    + vm_compute. reflexivity.
    + discriminate.
Defined.

(** C2 at an anonymous and at a named record. *)
Lemma name_normalised_witness :
  exists self other,
    NearEarthObject.__init__ (H := reference) "2020 AB" "" "" "Y" [] = Ok self
    /\ NearEarthObject.__init__ (H := reference) "433" "Eros" "16.84" "N" []
       = Ok other
    /\ NearEarthObject.name self = None
    /\ NearEarthObject.name other = Some "Eros".
Proof.
  eexists. eexists.
  split; [vm_compute; reflexivity |]. split; [vm_compute; reflexivity |].
  split.
  - apply (name_normalised (H := reference) "2020 AB" "" "" "Y" [] _).
    + vm_compute. reflexivity.
    + reflexivity.
  - apply (name_normalised (H := reference) "433" "Eros" "16.84" "N" [] _).
    + vm_compute. reflexivity.
    + discriminate.
Defined.

(** C3 at an unknown and at a known diameter. *)
Lemma diameter_normalised_witness :
  @float_nan_is_nan reference
  /\ (exists self,
         NearEarthObject.__init__ (H := reference) "2020 AB" "" "" "Y" []
         = Ok self
         /\ NearEarthObject.diameter self = nan
         /\ float_ne (NearEarthObject.diameter self)
              (NearEarthObject.diameter self) = true
         /\ float_eq (NearEarthObject.diameter self) zero = false
         /\ NearEarthObject.diameter self <> zero)
  /\ (exists self,
         NearEarthObject.__init__ (H := reference) "433" "Eros" "16.84" "N" []
         = Ok self
         /\ NearEarthObject.diameter self = NearEarthObject.diameter eros).
Proof.
  split; [reflexivity |]. split.
  - apply (diameter_normalised (H := reference) "2020 AB" "" "" "Y" []);
      reflexivity.
  - apply (diameter_normalised (H := reference) "433" "Eros" "16.84" "N" []).
    + reflexivity.
    + discriminate.
    + vm_compute. reflexivity.
Defined.

(** C7 at Eros. *)
Lemma fullname_with_name_witness :
  NearEarthObject.name eros = Some "Eros"
  /\ NearEarthObject.fullname eros = "433 (Eros)"
  /\ exists self,
       NearEarthObject.__init__ (H := reference) "433" "Eros" "16.84" "N" []
       = Ok self
       /\ NearEarthObject.fullname self = "433 (Eros)".
Proof.
  split; [reflexivity |]. split.
  - apply (proj1 (fullname_with_name (H := reference)) eros "Eros").
    reflexivity.
  - eexists. split; [vm_compute; reflexivity |].
    apply (proj2 (fullname_with_name (H := reference)) "16.84" "N" [] _).
    vm_compute. reflexivity.
Defined.

(** C10 at an anonymous record. *)
Lemma fullname_without_name_witness :
  exists self,
    NearEarthObject.__init__ (H := reference) "2020 AB" "" "" "Y" [] = Ok self
    /\ NearEarthObject.fullname self = "2020 AB (None)".
Proof.
  eexists. split; [vm_compute; reflexivity |].
  apply (fullname_without_name (H := reference) "2020 AB" "" "Y" [] _).
  vm_compute. reflexivity.
Defined.

(** C9: the constructor takes an empty designation as it comes, and the NEO
    it returns has an empty designation. *)
Lemma constructor_accepts_empty_designation :
  exists self,
    NearEarthObject.__init__ (H := reference) "" "Eros" "16.84" "N" []
    = Ok self
    /\ ~ (NearEarthObject.designation self <> ""
          /\ NearEarthObject.approaches self = []).
Proof.
  eexists. split; [vm_compute; reflexivity |].
  cbn [NearEarthObject.designation]. intros [Hd _]. now apply Hd.
Qed.

(** C9, as the code has it, at Eros. *)
Lemma designation_kept_approaches_empty_witness :
  exists self,
    NearEarthObject.__init__ (H := reference) "433" "Eros" "16.84" "N" []
    = Ok self
    /\ NearEarthObject.designation self = "433"
    /\ (NearEarthObject.designation self <> "" <-> "433" <> "")
    /\ NearEarthObject.approaches self = [].
Proof.
  eexists. split; [vm_compute; reflexivity |].
  apply (designation_kept_approaches_empty (H := reference)
           "433" "Eros" "16.84" "N" [] _).
  vm_compute. reflexivity.
Defined.

(** C4 at the approach of Eros. *)
Lemma serialize_linked_witness :
  CloseApproach.neo eros_approach = Some eros
  /\ CloseApproach.json_serialize eros_approach
     = Ok (PyDict
             [("datetime_utc", PyStr "2020-Jan-01 12:30");
              ("distance_au",
                PyFloat (CloseApproach.distance eros_approach));
              ("velocity_km_s",
                PyFloat (CloseApproach.velocity eros_approach));
              ("neo", PyDict
                 [("designation", PyStr "433");
                  ("name", PyStr "Eros");
                  ("diameter_km", PyFloat (NearEarthObject.diameter eros));
                  ("potentially_hazardous", PyBool false)])])
  /\ (j <- CloseApproach.json_serialize eros_approach ;; keys j)
     = Ok ["datetime_utc"; "distance_au"; "velocity_km_s"; "neo"]
  /\ (j <- CloseApproach.json_serialize eros_approach ;;
      j_neo <- getitem j "neo" ;;
      keys j_neo)
     = Ok ["designation"; "name"; "diameter_km"; "potentially_hazardous"]
  /\ (j <- CloseApproach.json_serialize eros_approach ;;
      j_neo <- getitem j "neo" ;;
      getitem j_neo "designation")
     = Ok (PyStr "433")
  /\ CloseApproach.csv_serialize eros_approach
     = Ok (PyDict
             [("datetime_utc", PyStr "2020-Jan-01 12:30");
              ("distance_au",
                PyFloat (CloseApproach.distance eros_approach));
              ("velocity_km_s",
                PyFloat (CloseApproach.velocity eros_approach));
              ("designation", PyStr "433");
              ("name", PyStr "Eros");
              ("diameter_km", PyFloat (NearEarthObject.diameter eros));
              ("potentially_hazardous", PyBool false)])
  /\ (c <- CloseApproach.csv_serialize eros_approach ;; keys c)
     = Ok ["datetime_utc"; "distance_au"; "velocity_km_s"; "designation";
           "name"; "diameter_km"; "potentially_hazardous"].
Proof.
  split; [reflexivity |].
  apply (serialize_linked eros_approach eros). reflexivity.
Defined.

(** C5 at an approach as constructed, and at the approach of Eros. *)
Lemma serialize_requires_neo_witness :
  exists self,
    CloseApproach.__init__ (H := reference)
      "433" "2020-Jan-01 12:30" "0.030860678" "11.2" [] = Ok self
    /\ CloseApproach.neo self = None
    /\ CloseApproach.json_serialize self = Raise AttributeError
    /\ CloseApproach.csv_serialize self = Raise AttributeError
    /\ CloseApproach.neo eros_approach = Some eros
    /\ succeeds (CloseApproach.json_serialize eros_approach)
    /\ succeeds (CloseApproach.csv_serialize eros_approach).
Proof.
  eexists. split; [vm_compute; reflexivity |].
  split; [reflexivity |].
  split; [| split; [| split; [reflexivity |]]].
  - apply (serialize_requires_neo _). reflexivity.
  - apply (serialize_requires_neo _). reflexivity.
  - apply (proj2 (serialize_requires_neo eros_approach) eros). reflexivity.
Defined.

(** C6 at the approach of 1 January 2020. *)
Lemma time_str_round_trip_witness :
  exists self,
    CloseApproach.__init__ (H := reference)
      "433" "2020-Jan-01 12:30" "0.030860678" "11.2" [] = Ok self
    /\ cd_to_datetime (CloseApproach.time_str self)
       = Ok (CloseApproach.time self)
    /\ CloseApproach.time_str self = "2020-Jan-01 12:30"
    /\ CloseApproach.time self = mkDatetime 2020 1 1 12 30.
Proof.
  eexists. split; [vm_compute; reflexivity |].
  pose proof (time_str_round_trip (H := reference)
                "433" "2020-Jan-01 12:30" "0.030860678" "11.2" [] _
                ltac:(vm_compute; reflexivity)) as (Hp & Hs & Hx).
  split; [exact Hp |]. split; [exact Hs |]. now apply Hx.
Defined.

(** C8 at the approach of Eros. *)
Lemma CloseApproach_fullname_embeds_str_witness :
  CloseApproach.neo eros_approach = Some eros
  /\ CloseApproach.fullname (H := reference) eros_approach
     = "433: NEO 433 (Eros) has a diameter of 16.84 km and is not potentially hazardous"
  /\ CloseApproach.fullname (H := reference) eros_approach <> "433: Eros".
Proof.
  split; [reflexivity |].
  destruct (proj2 (CloseApproach_fullname_embeds_str (H := reference)
                     eros_approach) eros eq_refl) as (Hs & _ & Hn).
  split; [| exact Hn].
  rewrite Hs. vm_compute. reflexivity.
Defined.

(** * Further properties of the two classes *)

Lemma append_inv_tail (p q a b : string) :
  String.length a = String.length b -> p ++ a = q ++ b -> a = b.
Proof.
  revert q. induction p as [| c p IH]; intros q Hl E.
  - destruct q as [| c' q]; [exact E |].
    apply (f_equal String.length) in E. cbn [append String.length] in E.
    rewrite append_length in E. lia.
  - destruct q as [| c' q].
    + apply (f_equal String.length) in E. cbn [append String.length] in E.
      rewrite append_length in E. lia.
    + cbn [append] in E. injection E as _ E. now apply IH with q.
Qed.

Section NearEarthObject_behaviour.
Context `{Builtins}.

(** X1. The constructor of a NEO returns exactly when the diameter is empty
    or [float] converts it, and raises exactly when the diameter is not empty
    and [float] raises on it, with the exception [float] raised. *)
Theorem NearEarthObject_init_outcome (d nm diam hz : string) (info : kwargs) :
  float_nan_is_nan ->
  (succeeds (NearEarthObject.__init__ d nm diam hz info)
   <-> diam = "" \/ succeeds (float diam))
  /\ (forall e : exn,
        NearEarthObject.__init__ d nm diam hz info = Raise e
        <-> diam <> "" /\ float diam = Raise e).
Proof.
  intros Hnan. unfold NearEarthObject.__init__.
  destruct (truthy (len diam)) eqn:Ht.
  - assert (diam <> "") as Hd.
    { intros Hd. apply truthy_len in Hd. congruence. }
    destruct (float diam) as [f | e'] eqn:Ef; cbn [bind]; split.
    + split; [intros _; right; now exists f | intros _; now eexists].
    + intros e. split; [discriminate | intros [_ E]; discriminate E].
    + split; [intros [a E]; discriminate E |].
      intros [Hd' | [a E]]; [contradiction | discriminate E].
    + intros e. split.
      * intros E. injection E as ->. now split.
      * intros [_ E]. injection E as ->. reflexivity.
  - apply truthy_len in Ht. subst diam. rewrite Hnan. cbn [bind]. split.
    + split; [intros _; now left | intros _; now eexists].
    + intros e. split; [discriminate | intros [Hd _]; now contradiction Hd].
Qed.

(** X2. A NEO constructed from the diameter string nan is the NEO constructed
    from an empty diameter: the constructor does not tell an unknown diameter
    from one written as nan. *)
Theorem nan_literal_is_unknown (d nm hz : string) (info : kwargs) :
  float_nan_is_nan ->
  NearEarthObject.__init__ d nm "nan" hz info
  = NearEarthObject.__init__ d nm "" hz info
  /\ exists self,
       NearEarthObject.__init__ d nm "nan" hz info = Ok self
       /\ NearEarthObject.diameter self = nan.
Proof.
  intros Hnan. unfold NearEarthObject.__init__.
  cbn [len String.length truthy Nat.eqb negb]. rewrite Hnan. cbn [bind].
  split; [reflexivity |]. eexists. split; reflexivity.
Qed.

(** X3. A NEO whose name is the text None and a NEO without a name have the
    same [fullname] and the same text, although their [name] attributes
    differ. *)
Theorem fullname_None_ambiguous (d diam hz : string) (info info' : kwargs)
    (named anonymous : NearEarthObject.t) :
  NearEarthObject.__init__ d "None" diam hz info = Ok named ->
  NearEarthObject.__init__ d "" diam hz info' = Ok anonymous ->
  NearEarthObject.name named <> NearEarthObject.name anonymous
  /\ NearEarthObject.fullname named = NearEarthObject.fullname anonymous
  /\ NearEarthObject.__str__ named = NearEarthObject.__str__ anonymous.
Proof.
  intros En Ea.
  apply NearEarthObject_init_Ok in En as (f & Hf & ->).
  apply NearEarthObject_init_Ok in Ea as (f' & Hf' & ->).
  rewrite Hf in Hf'. injection Hf' as <-.
  split; [discriminate |]. split; reflexivity.
Qed.

(** X4. The text of a constructed NEO ends with the phrase "is potentially
    hazardous" exactly when the hazardous input is Y, and with "is not
    potentially hazardous" exactly when it is anything else. *)
Theorem str_hazard_phrase (d nm diam hz : string) (info : kwargs)
    (self : NearEarthObject.t) :
  NearEarthObject.__init__ d nm diam hz info = Ok self ->
  (has_suffix (NearEarthObject.__str__ self)
     " km and is potentially hazardous" <-> hz = "Y")
  /\ (has_suffix (NearEarthObject.__str__ self)
        " km and is not potentially hazardous" <-> hz <> "Y").
Proof.
  intros E. apply NearEarthObject_init_Ok in E as (f & _ & ->).
  rewrite NearEarthObject_str_eq.
  cbn [NearEarthObject.designation NearEarthObject.name
       NearEarthObject.diameter NearEarthObject.hazardous].
  set (o := if truthy (len nm) then Some nm else None).
  set (pre := "NEO " ++ d ++ " (" ++ format_optstr o
              ++ ") has a diameter of " ++ float_repr f).
  assert (forall phrase : string,
             "NEO " ++ d ++ " (" ++ format_optstr o ++ ") has a diameter of "
             ++ float_repr f ++ " km and " ++ phrase ++ " potentially hazardous"
             = pre ++ " km and " ++ phrase ++ " potentially hazardous") as Hpre.
  { intros phrase. unfold pre.
    repeat (progress (rewrite ?append_assoc; cbn [append])). reflexivity. }
  rewrite Hpre. clear Hpre.
  destruct (String.eqb hz "Y") eqn:Ehz.
  - apply String.eqb_eq in Ehz. split.
    + split; [intros _; exact Ehz | intros _; now exists pre].
    + split; [| intros Hn; contradiction].
      intros [q Eq].
      replace (q ++ " km and is not potentially hazardous")
        with ((q ++ " km ") ++ "and is not potentially hazardous") in Eq
        by (now rewrite append_assoc).
      apply append_inv_tail in Eq; [discriminate Eq | reflexivity].
  - apply String.eqb_neq in Ehz. split.
    + split; [| intros Hy; contradiction].
      intros [q Eq].
      replace (pre ++ " km and " ++ "is not" ++ " potentially hazardous")
        with ((pre ++ " km ") ++ "and is not potentially hazardous") in Eq
        by (now rewrite append_assoc).
      apply append_inv_tail in Eq; [discriminate Eq | reflexivity].
    + split; [intros _; exact Ehz | intros _; now exists pre].
Qed.

End NearEarthObject_behaviour.

Section CloseApproach_behaviour.
Context `{Builtins}.

(** X5. The constructor of an approach returns exactly when the time parses
    and [float] converts the distance and the velocity; it raises the error of
    the first conversion that fails, the time before the distance and the
    distance before the velocity. *)
Theorem CloseApproach_init_outcome (d t dist vel : string) (info : kwargs) :
  (succeeds (CloseApproach.__init__ d t dist vel info)
   <-> succeeds (cd_to_datetime t) /\ succeeds (float dist)
       /\ succeeds (float vel))
  /\ (forall e : exn,
        cd_to_datetime t = Raise e ->
        CloseApproach.__init__ d t dist vel info = Raise e)
  /\ (forall e : exn,
        succeeds (cd_to_datetime t) -> float dist = Raise e ->
        CloseApproach.__init__ d t dist vel info = Raise e)
  /\ (forall e : exn,
        succeeds (cd_to_datetime t) -> succeeds (float dist) ->
        float vel = Raise e ->
        CloseApproach.__init__ d t dist vel info = Raise e).
Proof.
  split; [split |].
  - intros [self E].
    apply CloseApproach_init_Ok in E as (t' & f1 & f2 & Ht & Hd & Hv & _).
    repeat split; eexists; eassumption.
  - intros (Ht & Hd & Hv). now apply CloseApproach_init_total.
  - unfold CloseApproach.__init__. repeat split.
    + intros e ->. reflexivity.
    + intros e [t' ->] ->. reflexivity.
    + intros e [t' ->] [f ->] ->. reflexivity.
Qed.

(** X6. An approach as the constructor returns it is not linked: its
    designation is the one given, its [fullname] shows the text None in the
    place of the NEO, and both serialisers raise the null-reference error. *)
Theorem fresh_approach_unlinked (d t dist vel : string) (info : kwargs)
    (self : CloseApproach.t) :
  CloseApproach.__init__ d t dist vel info = Ok self ->
  CloseApproach.neo self = None
  /\ CloseApproach._designation self = d
  /\ CloseApproach.fullname self = d ++ ": None"
  /\ CloseApproach.json_serialize self = Raise AttributeError
  /\ CloseApproach.csv_serialize self = Raise AttributeError.
Proof.
  intros E. apply CloseApproach_init_Ok in E as (t' & f1 & f2 & _ & _ & _ & ->).
  repeat split.
Qed.

(** X7. The flat mapping is the nested one with the mapping under neo spliced
    in its place: the three fields of the approach are the same items in both,
    and the four items under neo follow them in the flat mapping. *)
Theorem csv_is_flattened_json (self : CloseApproach.t) (n : NearEarthObject.t) :
  CloseApproach.neo self = Some n ->
  exists top nested : list (string * pyval),
    CloseApproach.json_serialize self
    = Ok (PyDict (top ++ [("neo", PyDict nested)])%list)
    /\ CloseApproach.csv_serialize self = Ok (PyDict (top ++ nested)%list)
    /\ length top = 3%nat /\ length nested = 4%nat.
Proof.
  intros Hn.
  rewrite (json_serialize_linked self n Hn), (csv_serialize_linked self n Hn).
  eexists [_; _; _]%list, _.
  split; [reflexivity |]. split; [reflexivity |]. split; reflexivity.
Qed.

(** X8. No key occurs twice in the flat mapping, nor in the nested one or in
    its mapping under neo: inlining the fields of the NEO overwrites no field
    of the approach. *)
Theorem serialized_keys_distinct (self : CloseApproach.t)
    (n : NearEarthObject.t) :
  CloseApproach.neo self = Some n ->
  exists flat top nested : list string,
    (c <- CloseApproach.csv_serialize self ;; keys c) = Ok flat
    /\ (j <- CloseApproach.json_serialize self ;; keys j) = Ok top
    /\ (j <- CloseApproach.json_serialize self ;;
        j_neo <- getitem j "neo" ;;
        keys j_neo) = Ok nested
    /\ NoDup flat /\ NoDup top /\ NoDup nested.
Proof.
  intros Hn.
  rewrite (json_serialize_linked self n Hn), (csv_serialize_linked self n Hn).
  do 3 eexists.
  split; [reflexivity |]. split; [reflexivity |]. split; [reflexivity |].
  repeat split;
    repeat (constructor; [cbn [In]; intuition discriminate |]);
    constructor.
Qed.

(** X9. What the constructor of a NEO normalised reaches the mappings as it
    is: for an approach linked to a NEO constructed without a name and without
    a diameter, name is None and diameter_km is the NaN in both mappings, and
    potentially_hazardous is true exactly when the hazardous input was Y. *)
Theorem unknown_values_serialized (d hz : string) (info : kwargs)
    (n : NearEarthObject.t) (self : CloseApproach.t) :
  float_nan_is_nan ->
  NearEarthObject.__init__ d "" "" hz info = Ok n ->
  CloseApproach.neo self = Some n ->
  (j <- CloseApproach.json_serialize self ;;
   j_neo <- getitem j "neo" ;;
   getitem j_neo "name") = Ok PyNone
  /\ (j <- CloseApproach.json_serialize self ;;
      j_neo <- getitem j "neo" ;;
      getitem j_neo "diameter_km") = Ok (PyFloat nan)
  /\ (j <- CloseApproach.json_serialize self ;;
      j_neo <- getitem j "neo" ;;
      getitem j_neo "potentially_hazardous") = Ok (PyBool (String.eqb hz "Y"))
  /\ (c <- CloseApproach.csv_serialize self ;; getitem c "name") = Ok PyNone
  /\ (c <- CloseApproach.csv_serialize self ;; getitem c "diameter_km")
     = Ok (PyFloat nan)
  /\ (c <- CloseApproach.csv_serialize self ;;
      getitem c "potentially_hazardous") = Ok (PyBool (String.eqb hz "Y")).
Proof.
  intros Hnan En Hn.
  apply NearEarthObject_init_Ok in En as (f & Hf & ->).
  cbn [len String.length truthy Nat.eqb negb] in Hf.
  rewrite Hnan in Hf. injection Hf as <-.
  rewrite (json_serialize_linked self _ Hn), (csv_serialize_linked self _ Hn).
  cbn [NearEarthObject.name NearEarthObject.diameter
       NearEarthObject.hazardous len String.length truthy Nat.eqb negb].
  destruct (String.eqb hz "Y"); repeat split.
Qed.

Context `{Rounding}.

(** X10. The text of an approach: the time, the [fullname] with the whole
    text of the linked NEO in it, and the distance and the velocity rounded to
    four places; it ends with a blank.  On an approach that is not linked the
    text None stands in the place of the NEO, and no error is raised. *)
Theorem CloseApproach_str_text (self : CloseApproach.t) :
  (forall n : NearEarthObject.t,
      CloseApproach.neo self = Some n ->
      CloseApproach__str__ self
      = "At " ++ CloseApproach.time_str self ++ " NearEarthObject "
        ++ CloseApproach._designation self ++ ": NEO "
        ++ NearEarthObject.designation n ++ " ("
        ++ format_optstr (NearEarthObject.name n) ++ ") has a diameter of "
        ++ float_repr (NearEarthObject.diameter n) ++ " km and "
        ++ (if NearEarthObject.hazardous n then "is" else "is not")
        ++ " potentially hazardous approaches earth at a distance of "
        ++ float_repr (round (CloseApproach.distance self) 4)
        ++ " au and a velocity of "
        ++ float_repr (round (CloseApproach.velocity self) 4) ++ " km/s ")
  /\ (CloseApproach.neo self = None ->
      CloseApproach__str__ self
      = "At " ++ CloseApproach.time_str self ++ " NearEarthObject "
        ++ CloseApproach._designation self
        ++ ": None approaches earth at a distance of "
        ++ float_repr (round (CloseApproach.distance self) 4)
        ++ " au and a velocity of "
        ++ float_repr (round (CloseApproach.velocity self) 4) ++ " km/s ").
Proof.
  unfold CloseApproach__str__, CloseApproach.fullname,
    CloseApproach.format_neo.
  split.
  - intros n ->. rewrite NearEarthObject_str_eq.
    repeat (progress (rewrite ?append_assoc; cbn [append])). reflexivity.
  - intros ->.
    repeat (progress (rewrite ?append_assoc; cbn [append])). reflexivity.
Qed.

End CloseApproach_behaviour.

(** * The further properties at work on the reference builtins *)

(** X1 at an unknown diameter and at one that is not a number. *)
Lemma NearEarthObject_init_outcome_witness :
  @float_nan_is_nan reference
  /\ succeeds (NearEarthObject.__init__ (H := reference) "433" "Eros" "" "N" [])
  /\ NearEarthObject.__init__ (H := reference) "433" "Eros" "wide" "N" []
     = Raise ValueError.
Proof.
  split; [reflexivity |]. split.
  - apply (NearEarthObject_init_outcome (H := reference)
             "433" "Eros" "" "N" [] eq_refl).
    left. reflexivity.
  - apply (NearEarthObject_init_outcome (H := reference)
             "433" "Eros" "wide" "N" [] eq_refl).
    split; [discriminate | vm_compute; reflexivity].
Defined.

(** X2 at Eros. *)
Lemma nan_literal_is_unknown_witness :
  @float_nan_is_nan reference
  /\ NearEarthObject.__init__ (H := reference) "433" "Eros" "nan" "N" []
     = NearEarthObject.__init__ (H := reference) "433" "Eros" "" "N" [].
Proof.
  split; [reflexivity |].
  apply (nan_literal_is_unknown (H := reference) "433" "Eros" "N" [] eq_refl).
Defined.

(** X3 at the designation 433. *)
Lemma fullname_None_ambiguous_witness :
  exists named anonymous,
    NearEarthObject.__init__ (H := reference) "433" "None" "16.84" "N" []
    = Ok named
    /\ NearEarthObject.__init__ (H := reference) "433" "" "16.84" "N" []
       = Ok anonymous
    /\ NearEarthObject.name named <> NearEarthObject.name anonymous
    /\ NearEarthObject.fullname named = NearEarthObject.fullname anonymous
    /\ NearEarthObject.__str__ (H := reference) named
       = NearEarthObject.__str__ (H := reference) anonymous.
Proof.
  eexists. eexists.
  split; [vm_compute; reflexivity |]. split; [vm_compute; reflexivity |].
  apply (fullname_None_ambiguous (H := reference) "433" "16.84" "N" [] []).
  - vm_compute. reflexivity.
  - vm_compute. reflexivity.
Defined.

(** X4 at a harmless and at a hazardous record. *)
Lemma str_hazard_phrase_witness :
  exists self other,
    NearEarthObject.__init__ (H := reference) "433" "Eros" "16.84" "N" []
    = Ok self
    /\ NearEarthObject.__init__ (H := reference) "2020 AB" "" "" "Y" []
       = Ok other
    /\ has_suffix (NearEarthObject.__str__ (H := reference) self)
         " km and is not potentially hazardous"
    /\ has_suffix (NearEarthObject.__str__ (H := reference) other)
         " km and is potentially hazardous".
Proof.
  eexists. eexists.
  split; [vm_compute; reflexivity |]. split; [vm_compute; reflexivity |].
  split.
  - apply (str_hazard_phrase (H := reference) "433" "Eros" "16.84" "N" [] _).
    + vm_compute. reflexivity.
    + discriminate.
  - apply (str_hazard_phrase (H := reference) "2020 AB" "" "" "Y" [] _).
    + vm_compute. reflexivity.
    + reflexivity.
Defined.

(** X5 at a record that converts and at three that do not. *)
Lemma CloseApproach_init_outcome_witness :
  succeeds (CloseApproach.__init__ (H := reference)
              "433" "2020-Jan-01 12:30" "0.030860678" "11.2" [])
  /\ CloseApproach.__init__ (H := reference)
       "433" "2021-Feb-29 12:30" "far" "fast" [] = Raise ValueError
  /\ CloseApproach.__init__ (H := reference)
       "433" "2020-Jan-01 12:30" "far" "fast" [] = Raise ValueError
  /\ CloseApproach.__init__ (H := reference)
       "433" "2020-Jan-01 12:30" "0.030860678" "fast" [] = Raise ValueError.
Proof.
  split; [| split; [| split]].
  - apply (proj2 (proj1 (CloseApproach_init_outcome (H := reference)
             "433" "2020-Jan-01 12:30" "0.030860678" "11.2" []))).
    repeat split; eexists; vm_compute; reflexivity.
  - apply (proj1 (proj2 (CloseApproach_init_outcome (H := reference)
             "433" "2021-Feb-29 12:30" "far" "fast" []))).
    vm_compute. reflexivity.
  - apply (proj1 (proj2 (proj2 (CloseApproach_init_outcome (H := reference)
             "433" "2020-Jan-01 12:30" "far" "fast" [])))).
    + eexists. vm_compute. reflexivity.
    + vm_compute. reflexivity.
  - apply (proj2 (proj2 (proj2 (CloseApproach_init_outcome (H := reference)
             "433" "2020-Jan-01 12:30" "0.030860678" "fast" [])))).
    + eexists. vm_compute. reflexivity.
    + eexists. vm_compute. reflexivity.
    + vm_compute. reflexivity.
Defined.

(** X6 at the approach of 1 January 2020. *)
Lemma fresh_approach_unlinked_witness :
  exists self,
    CloseApproach.__init__ (H := reference)
      "433" "2020-Jan-01 12:30" "0.030860678" "11.2" [] = Ok self
    /\ CloseApproach.neo self = None
    /\ CloseApproach._designation self = "433"
    /\ CloseApproach.fullname (H := reference) self = "433: None"
    /\ CloseApproach.json_serialize self = Raise AttributeError
    /\ CloseApproach.csv_serialize self = Raise AttributeError.
Proof.
  eexists. split; [vm_compute; reflexivity |].
  apply (fresh_approach_unlinked (H := reference)
           "433" "2020-Jan-01 12:30" "0.030860678" "11.2" [] _).
  vm_compute. reflexivity.
Defined.

(** X7 at the approach of Eros. *)
Lemma csv_is_flattened_json_witness :
  CloseApproach.neo eros_approach = Some eros
  /\ exists top nested : list (string * pyval),
       CloseApproach.json_serialize eros_approach
       = Ok (PyDict (top ++ [("neo", PyDict nested)])%list)
       /\ CloseApproach.csv_serialize eros_approach
          = Ok (PyDict (top ++ nested)%list)
       /\ length top = 3%nat /\ length nested = 4%nat.
Proof.
  split; [reflexivity |].
  apply (csv_is_flattened_json eros_approach eros). reflexivity.
Defined.

(** X8 at the approach of Eros. *)
Lemma serialized_keys_distinct_witness :
  CloseApproach.neo eros_approach = Some eros
  /\ exists flat top nested : list string,
       (c <- CloseApproach.csv_serialize eros_approach ;; keys c) = Ok flat
       /\ (j <- CloseApproach.json_serialize eros_approach ;; keys j) = Ok top
       /\ (j <- CloseApproach.json_serialize eros_approach ;;
           j_neo <- getitem j "neo" ;;
           keys j_neo) = Ok nested
       /\ NoDup flat /\ NoDup top /\ NoDup nested.
Proof.
  split; [reflexivity |].
  apply (serialized_keys_distinct eros_approach eros). reflexivity.
Defined.

(** X9 at an approach linked to an anonymous NEO of unknown diameter. *)
Lemma unknown_values_serialized_witness :
  @float_nan_is_nan reference
  /\ NearEarthObject.__init__ (H := reference) "2020 AB" "" "" "Y" []
     = Ok (NearEarthObject.mk "2020 AB" None nan true [])
  /\ (c <- CloseApproach.csv_serialize
              (CloseApproach.mk "2020 AB" (mkDatetime 2020 1 1 12 30)
                 zero zero
                 (Some (NearEarthObject.mk "2020 AB" None nan true []))) ;;
       getitem c "diameter_km") = Ok (PyFloat nan).
Proof.
  split; [reflexivity |]. split; [vm_compute; reflexivity |].
  apply (unknown_values_serialized (H := reference) "2020 AB" "Y" []
           (NearEarthObject.mk "2020 AB" None nan true [])
           (CloseApproach.mk "2020 AB" (mkDatetime 2020 1 1 12 30)
              zero zero
              (Some (NearEarthObject.mk "2020 AB" None nan true [])))
           eq_refl).
  - vm_compute. reflexivity.
  - reflexivity.
Defined.

(** X10 at the approach of Eros, linked and before it is linked. *)
Lemma CloseApproach_str_text_witness :
  CloseApproach.neo eros_approach = Some eros
  /\ CloseApproach__str__ (H := reference) (H0 := reference_rounding)
       eros_approach
     = "At 2020-Jan-01 12:30 NearEarthObject 433: NEO 433 (Eros) has a diameter of 16.84 km and is not potentially hazardous approaches earth at a distance of 0.0309 au and a velocity of 11.2 km/s "
  /\ CloseApproach__str__ (H := reference) (H0 := reference_rounding)
       (CloseApproach.mk "433" (mkDatetime 2020 1 1 12 30)
          (CloseApproach.distance eros_approach)
          (CloseApproach.velocity eros_approach) None)
     = "At 2020-Jan-01 12:30 NearEarthObject 433: None approaches earth at a distance of 0.0309 au and a velocity of 11.2 km/s ".
Proof.
  pose proof (CloseApproach_str_text (H := reference)
                (H0 := reference_rounding) eros_approach) as [Hl _].
  pose proof (CloseApproach_str_text (H := reference)
                (H0 := reference_rounding)
                (CloseApproach.mk "433" (mkDatetime 2020 1 1 12 30)
                   (CloseApproach.distance eros_approach)
                   (CloseApproach.velocity eros_approach) None)) as [_ Hu].
  split; [reflexivity |]. split.
  - rewrite (Hl eros eq_refl). vm_compute. reflexivity.
  - rewrite (Hu eq_refl). vm_compute. reflexivity.
Defined.
